(** * prosperity_app.py: the CPPG calculator

    A shallow embedding of the calculation and output block of the
    Streamlit script [prosperity_app.py] (lines 70-118), and the
    properties the specification states about it.

    Numbers.  The specification's data model speaks of real numbers; the
    script's floats are idealised here as exact rationals [Q], compared
    with [==].  Rounding, overflow and NaN of binary64 are therefore not
    part of this development; in particular a total gain always compares
    with 0 one way or the other, which a NaN does not.  [population] is a
    Python [int], modelled as [Z].

    What Python does and [Q] does not is written out: a true division by
    zero raises [ZeroDivisionError], and formatting [None] with a float
    format spec raises [TypeError]. *)

From Stdlib Require Import QArith Qfield Lqa ZArith Lia String List Bool.
Import ListNotations.
Open Scope Q_scope.

(** ** Python results *)

Inductive exn : Type :=
| ZeroDivisionError
| TypeError.

Inductive result (A : Type) : Type :=
| Ok (a : A)
| Raise (e : exn).

Arguments Ok {A} a.
Arguments Raise {A} e.

(** [x > y] on floats, as a test. *)
Definition Qgt_bool (x y : Q) : bool :=
  match x ?= y with
  | Gt => true
  | _ => false
  end.

(** [x / y]: Python raises on a zero divisor, where [Qdiv] returns 0. *)
Definition truediv (x y : Q) : result Q :=
  if Qeq_bool y 0 then Raise ZeroDivisionError else Ok (x / y).

(** A number handed to a fixed-point format spec such as [:,.2f]. *)
Record Formatted : Type := fixed {
  shown_value : Q;
  shown_decimals : nat
}.

(** [f"{v:,.nf}"]: [None] does not accept a float format spec. *)
Definition format_fixed (v : option Q) (n : nat) : result Formatted :=
  match v with
  | Some x => Ok (fixed x n)
  | None => Raise TypeError
  end.

(** The operand of an arithmetic operator must be a number. *)
Definition as_float (v : option Q) : result Q :=
  match v with
  | Some x => Ok x
  | None => Raise TypeError
  end.

(** ** Widgets (lines 20-64 and 106-112)

    One field per input widget, holding the value the widget returns. *)

Record Inputs : Type := {
  cost_per_person : Q;
  population : Z;
  target_age : Z;
  avg_motivation : Z;
  engagement : Q;
  persistence_months : Z;
  math_sd : Q;
  grad_rate_pp : Q;
  college_enroll_pp : Q;
  discount_rate_pct : Q;
  math_gain_per_sd : Q;
  earnings_gain_hs_vs_dropout : Q;
  earnings_gain_college_vs_hs : Q;
  fadeout_factor : Q;
  scenario_multiplier : Q
}.

(** The [value=] arguments of the widgets. *)
Definition default_inputs : Inputs := {|
  cost_per_person := 1000;
  population := 1000;
  target_age := 16;
  avg_motivation := 3;
  engagement := 5;
  persistence_months := 6;
  math_sd := 1 # 10;
  grad_rate_pp := 5;
  college_enroll_pp := 3;
  discount_rate_pct := 3;
  math_gain_per_sd := 80000;
  earnings_gain_hs_vs_dropout := 300000;
  earnings_gain_college_vs_hs := 600000;
  fadeout_factor := 3 # 10;
  scenario_multiplier := 1
|}.

(** The ranges the widgets enforce ([min_value=], slider bounds). *)
Definition cost_input_ok (i : Inputs) : Prop := 0 <= cost_per_person i.
Definition population_input_ok (i : Inputs) : Prop := (1 <= population i)%Z.
Definition fadeout_slider_ok (i : Inputs) : Prop :=
  0 <= fadeout_factor i /\ fadeout_factor i <= 1.
Definition scenario_slider_ok (i : Inputs) : Prop :=
  1 # 2 <= scenario_multiplier i /\ scenario_multiplier i <= 3 # 2.
Definition unused_sliders_ok (i : Inputs) : Prop :=
  (0 <= target_age i <= 65)%Z /\ (1 <= avg_motivation i <= 5)%Z /\
  (0 <= engagement i /\ engagement i <= 40) /\
  (0 <= persistence_months i <= 48)%Z.

Definition widgets_ok (i : Inputs) : Prop :=
  cost_input_ok i /\ population_input_ok i /\ fadeout_slider_ok i /\
  scenario_slider_ok i /\ unused_sliders_ok i.

(** Line 46: the only place [discount_rate] occurs. *)
Definition discount_rate (i : Inputs) : Q := discount_rate_pct i / 100.

(** ** Calculations (lines 72-79)

    The names these lines bind.  [cppg] is a float or [None]. *)

Record Bindings : Type := {
  gain_from_math : Q;
  gain_from_grad_rate : Q;
  gain_from_college : Q;
  total_gain_per_person : Q;
  cppg : option Q
}.

(** The divisor [100] is a literal and the divisor of [cppg] is tested
    positive, so neither division can raise. *)
Definition calculations (i : Inputs) : Bindings :=
  let gain_from_math :=
    math_sd i * math_gain_per_sd i * (1 - fadeout_factor i) in
  let gain_from_grad_rate :=
    (grad_rate_pp i / 100) * earnings_gain_hs_vs_dropout i in
  let gain_from_college :=
    (college_enroll_pp i / 100) * earnings_gain_college_vs_hs i in
  let total_gain_per_person :=
    gain_from_math + gain_from_grad_rate + gain_from_college in
  let cppg :=
    if Qgt_bool total_gain_per_person 0
    then Some (cost_per_person i / total_gain_per_person)
    else None in
  {| gain_from_math := gain_from_math;
     gain_from_grad_rate := gain_from_grad_rate;
     gain_from_college := gain_from_college;
     total_gain_per_person := total_gain_per_person;
     cppg := cppg |}.

(** ** Output (lines 82-118) *)

(** What the results section puts on the page. *)
Inductive Element : Type :=
| st_error (text : string)
| st_metric (label : string) (value : Formatted)
| st_write (label : string) (values : list Formatted).

(** The names bound inside the [else] branch (lines 92-114). *)
Record Cohort : Type := {
  roi : Q;
  total_cost : Q;
  total_gain : Q;
  net_gain : Q;
  adj_gain : Q;
  adj_cppg : option Q
}.

Record State : Type := {
  cohort : option Cohort;
  page : list Element
}.

Definition initial_state : State := {| cohort := None; page := [] |}.

(** Statements: they change the state, and may raise; the state reached
    when an exception is raised is kept. *)
Definition M (A : Type) : Type := State -> result A * State.

Definition ret {A : Type} (a : A) : M A := fun s => (Ok a, s).

Definition bind {A B : Type} (m : M A) (k : A -> M B) : M B :=
  fun s =>
    match m s with
    | (Ok a, s') => k a s'
    | (Raise e, s') => (Raise e, s')
    end.

Notation "x <- m ;; k" := (bind m (fun x => k))
  (at level 61, m at next level, right associativity).

Definition lift {A : Type} (r : result A) : M A := fun s => (r, s).

Definition show (e : Element) : M unit :=
  fun s => (Ok tt, {| cohort := cohort s; page := page s ++ [e] |}).

Definition assign (c : Cohort) : M unit :=
  fun s => (Ok tt, {| cohort := Some c; page := page s |}).

Definition error_text : string :=
  "Total prosperity gain per participant is zero or negative. Adjust inputs.".
Definition cppg_label : string :=
  "Cost per $1 of lifetime prosperity gained (CPPG)".
Definition roi_label : string := "Return on Investment (ROI)".
Definition total_cost_label : string := "Total program cost".
Definition total_gain_label : string := "Total lifetime prosperity gain".
Definition net_gain_label : string := "Net lifetime prosperity gain".
Definition scenario_label : string := "adjusted CPPG".

Definition results_section (v : Bindings) (i : Inputs) : M unit :=
  if Qle_bool (total_gain_per_person v) 0 then
    show (st_error error_text)
  else
    shown_cppg <- lift (format_fixed (cppg v) 2) ;;
    _ <- show (st_metric cppg_label shown_cppg) ;;
    c <- lift (as_float (cppg v)) ;;
    roi <- lift (truediv 1 c) ;;
    _ <- show (st_metric roi_label (fixed roi 1)) ;;
    let total_cost := cost_per_person i * inject_Z (population i) in
    let total_gain := total_gain_per_person v * inject_Z (population i) in
    let net_gain := total_gain - total_cost in
    _ <- show (st_write total_cost_label [fixed total_cost 0]) ;;
    _ <- show (st_write total_gain_label [fixed total_gain 0]) ;;
    _ <- show (st_write net_gain_label [fixed net_gain 0]) ;;
    let adj_gain := total_gain_per_person v * scenario_multiplier i in
    let adj_cppg :=
      if Qgt_bool adj_gain 0
      then Some (cost_per_person i / adj_gain)
      else None in
    _ <- assign {| roi := roi; total_cost := total_cost;
              total_gain := total_gain; net_gain := net_gain;
              adj_gain := adj_gain; adj_cppg := adj_cppg |} ;;
    shown_adj <- lift (format_fixed adj_cppg 2) ;;
    show (st_write scenario_label
            [fixed (scenario_multiplier i) 1; shown_adj]).

(** One run of the script on the widget values [i]. *)
Record Outcome : Type := {
  bindings : Bindings;
  final : State;
  raised : option exn
}.

Definition run (i : Inputs) : Outcome :=
  let v := calculations i in
  let (r, s) := results_section v i initial_state in
  {| bindings := v;
     final := s;
     raised := match r with Ok _ => None | Raise e => Some e end |}.

(** The [st.error] branch was taken: the ratio is undefined. *)
Definition undefined_ratio (o : Outcome) : Prop :=
  page (final o) = [st_error error_text] /\ raised o = None.

(** The names bound once line 114 has run, [adj_cppg] being [a], and
    the page as it stands before the scenario sentence of line 115:
    used to state which state a run ends in. *)
Definition bound_cohort (i : Inputs) (a : option Q) : Cohort :=
  let tg := total_gain_per_person (calculations i) in
  let n := inject_Z (population i) in
  {| roi := 1 / (cost_per_person i / tg);
     total_cost := cost_per_person i * n;
     total_gain := tg * n;
     net_gain := tg * n - cost_per_person i * n;
     adj_gain := tg * scenario_multiplier i;
     adj_cppg := a |}.

Definition cohort_page (i : Inputs) : list Element :=
  let tg := total_gain_per_person (calculations i) in
  let n := inject_Z (population i) in
  [st_metric cppg_label (fixed (cost_per_person i / tg) 2);
   st_metric roi_label (fixed (1 / (cost_per_person i / tg)) 1);
   st_write total_cost_label [fixed (cost_per_person i * n) 0];
   st_write total_gain_label [fixed (tg * n) 0];
   st_write net_gain_label [fixed (tg * n - cost_per_person i * n) 0]].

(** ** Inputs changed in one place *)

Definition with_cost (x : Q) (i : Inputs) : Inputs :=
  {| cost_per_person := x;
     population := population i;
     target_age := target_age i;
     avg_motivation := avg_motivation i;
     engagement := engagement i;
     persistence_months := persistence_months i;
     math_sd := math_sd i;
     grad_rate_pp := grad_rate_pp i;
     college_enroll_pp := college_enroll_pp i;
     discount_rate_pct := discount_rate_pct i;
     math_gain_per_sd := math_gain_per_sd i;
     earnings_gain_hs_vs_dropout := earnings_gain_hs_vs_dropout i;
     earnings_gain_college_vs_hs := earnings_gain_college_vs_hs i;
     fadeout_factor := fadeout_factor i;
     scenario_multiplier := scenario_multiplier i |}.

(** The three effect sizes set to [a], [b] and [c]. *)
Definition with_effects (a b c : Q) (i : Inputs) : Inputs :=
  {| cost_per_person := cost_per_person i;
     population := population i;
     target_age := target_age i;
     avg_motivation := avg_motivation i;
     engagement := engagement i;
     persistence_months := persistence_months i;
     math_sd := a;
     grad_rate_pp := b;
     college_enroll_pp := c;
     discount_rate_pct := discount_rate_pct i;
     math_gain_per_sd := math_gain_per_sd i;
     earnings_gain_hs_vs_dropout := earnings_gain_hs_vs_dropout i;
     earnings_gain_college_vs_hs := earnings_gain_college_vs_hs i;
     fadeout_factor := fadeout_factor i;
     scenario_multiplier := scenario_multiplier i |}.

Definition with_math_sd (x : Q) (i : Inputs) : Inputs :=
  with_effects x (grad_rate_pp i) (college_enroll_pp i) i.
Definition with_grad_rate_pp (x : Q) (i : Inputs) : Inputs :=
  with_effects (math_sd i) x (college_enroll_pp i) i.
Definition with_college_enroll_pp (x : Q) (i : Inputs) : Inputs :=
  with_effects (math_sd i) (grad_rate_pp i) x i.

(** The widgets whose values no line of the calculation reads. *)
Definition with_unused (d e : Q) (t a p : Z) (i : Inputs) : Inputs :=
  {| cost_per_person := cost_per_person i;
     population := population i;
     target_age := t;
     avg_motivation := a;
     engagement := e;
     persistence_months := p;
     math_sd := math_sd i;
     grad_rate_pp := grad_rate_pp i;
     college_enroll_pp := college_enroll_pp i;
     discount_rate_pct := d;
     math_gain_per_sd := math_gain_per_sd i;
     earnings_gain_hs_vs_dropout := earnings_gain_hs_vs_dropout i;
     earnings_gain_college_vs_hs := earnings_gain_college_vs_hs i;
     fadeout_factor := fadeout_factor i;
     scenario_multiplier := scenario_multiplier i |}.

(** Two inputs that differ at most in [discount_rate], [target_age],
    [avg_motivation], [engagement] and [persistence_months]. *)
Definition same_used_inputs (i j : Inputs) : Prop :=
  cost_per_person i = cost_per_person j /\
  population i = population j /\
  math_sd i = math_sd j /\
  grad_rate_pp i = grad_rate_pp j /\
  college_enroll_pp i = college_enroll_pp j /\
  math_gain_per_sd i = math_gain_per_sd j /\
  earnings_gain_hs_vs_dropout i = earnings_gain_hs_vs_dropout j /\
  earnings_gain_college_vs_hs i = earnings_gain_college_vs_hs j /\
  fadeout_factor i = fadeout_factor j /\
  scenario_multiplier i = scenario_multiplier j.

(** The defaults with a free programme, with no effect at all, and with
    the unused widgets moved. *)
Definition zero_cost_inputs : Inputs := with_cost 0 default_inputs.
Definition no_effect_inputs : Inputs := with_effects 0 0 0 default_inputs.
Definition other_unused_inputs : Inputs :=
  with_unused 7 (25 # 2) 30 5 24 default_inputs.

(** ** More inputs changed in one place *)

(** The population, the fade-out factor and the scenario multiplier set to
    [n], [f] and [m]. *)
Definition with_settings (n : Z) (f m : Q) (i : Inputs) : Inputs :=
  {| cost_per_person := cost_per_person i;
     population := n;
     target_age := target_age i;
     avg_motivation := avg_motivation i;
     engagement := engagement i;
     persistence_months := persistence_months i;
     math_sd := math_sd i;
     grad_rate_pp := grad_rate_pp i;
     college_enroll_pp := college_enroll_pp i;
     discount_rate_pct := discount_rate_pct i;
     math_gain_per_sd := math_gain_per_sd i;
     earnings_gain_hs_vs_dropout := earnings_gain_hs_vs_dropout i;
     earnings_gain_college_vs_hs := earnings_gain_college_vs_hs i;
     fadeout_factor := f;
     scenario_multiplier := m |}.

Definition with_population (n : Z) (i : Inputs) : Inputs :=
  with_settings n (fadeout_factor i) (scenario_multiplier i) i.
Definition with_fadeout (f : Q) (i : Inputs) : Inputs :=
  with_settings (population i) f (scenario_multiplier i) i.
Definition with_multiplier (m : Q) (i : Inputs) : Inputs :=
  with_settings (population i) (fadeout_factor i) m i.

(** The three effect sizes multiplied by [k]: what the scenario slider's
    label, "Effect size multiplier", describes. *)
Definition scaled_effects (k : Q) (i : Inputs) : Inputs :=
  with_effects (k * math_sd i) (k * grad_rate_pp i)
    (k * college_enroll_pp i) i.

(** The defaults with a harmful programme, with full fade-out, with a
    pessimistic multiplier, and with a cost above the gain. *)
Definition negative_effect_inputs : Inputs :=
  with_effects (-1) 0 0 default_inputs.
Definition full_fadeout_inputs : Inputs := with_fadeout 1 default_inputs.
Definition pessimistic_inputs : Inputs :=
  with_multiplier (1 # 2) default_inputs.
Definition costly_inputs : Inputs := with_cost 50000 default_inputs.

(** * Properties *)

(** ** The tests *)

Lemma Qgt_bool_iff (x y : Q) : Qgt_bool x y = true <-> y < x.
Proof.
  unfold Qgt_bool. rewrite (Qgt_alt x y).
  destruct (x ?= y); split; intro H; congruence.
Qed.

Lemma Qgt_bool_false_iff (x y : Q) : Qgt_bool x y = false <-> x <= y.
Proof.
  unfold Qgt_bool. rewrite (Qle_alt x y).
  destruct (x ?= y); split; intro H; congruence.
Qed.

Lemma Qle_bool_false_iff (x y : Q) : Qle_bool x y = false <-> y < x.
Proof.
  rewrite <- not_true_iff_false, Qle_bool_iff. split.
  - apply Qnot_le_lt.
  - apply Qlt_not_le.
Qed.

Lemma Qeq_bool_false_iff (x y : Q) : Qeq_bool x y = false <-> ~ x == y.
Proof.
  rewrite <- not_true_iff_false, Qeq_bool_iff. reflexivity.
Qed.

(** The two tests of the script on [total_gain_per_person], [> 0] on
    line 79 and [<= 0] on line 84, are complementary. *)
Lemma guards_complementary (x : Q) : Qle_bool x 0 = negb (Qgt_bool x 0).
Proof.
  destruct (Qgt_bool x 0) eqn:G; cbn.
  - apply Qle_bool_false_iff, Qgt_bool_iff, G.
  - apply Qle_bool_iff, Qgt_bool_false_iff, G.
Qed.

Lemma truediv_ok (x y : Q) : ~ y == 0 -> truediv x y = Ok (x / y).
Proof.
  intro H. unfold truediv.
  now rewrite (proj2 (Qeq_bool_false_iff y 0) H).
Qed.

Lemma truediv_zero (x y : Q) : y == 0 -> truediv x y = Raise ZeroDivisionError.
Proof.
  intro H. unfold truediv. now rewrite (Qeq_eq_bool _ _ H).
Qed.

(** Scaling the divisor by [m] scales the ratio by [1/m]. *)
Lemma scaled_ratio (c t m : Q) :
  0 < t -> 0 < t * m -> c / (t * m) == c / t / m.
Proof.
  intros T A.
  assert (~ m == 0)
    by (intro Z; rewrite Z, Qmult_0_r in A; now apply (Qlt_irrefl 0)).
  field. split; first [assumption | lra].
Qed.

(** ** The calculations, field by field *)

Section Calculations.

Variable i : Inputs.

Local Abbreviation tg := (total_gain_per_person (calculations i)).

Lemma cppg_defined :
  0 < tg -> cppg (calculations i) = Some (cost_per_person i / tg).
Proof.
  intro H. cbn in *.
  now rewrite (proj2 (Qgt_bool_iff _ 0) H).
Qed.

Lemma cppg_none : tg <= 0 -> cppg (calculations i) = None.
Proof.
  intro H. cbn in *.
  now rewrite (proj2 (Qgt_bool_false_iff _ 0) H).
Qed.

Lemma cppg_zero_iff :
  0 < tg -> (cost_per_person i / tg == 0 <-> cost_per_person i == 0).
Proof.
  intro H. split; intro E.
  - setoid_replace (cost_per_person i)
      with (cost_per_person i / tg * tg) by (field; lra).
    rewrite E. ring.
  - rewrite E. field. lra.
Qed.

(** ** The four ways a run can go *)

Local Abbreviation cost := (cost_per_person i).
Local Abbreviation m := (scenario_multiplier i).
Local Abbreviation n := (inject_Z (population i)).

(** Line 85: the error box, and nothing else. *)
Lemma run_undefined :
  tg <= 0 ->
  run i = {| bindings := calculations i;
             final := {| cohort := None; page := [st_error error_text] |};
             raised := None |}.
Proof.
  intro H. unfold run, results_section.
  now rewrite (proj2 (Qle_bool_iff _ 0) H).
Qed.

(** Line 92 raises: the CPPG metric is on the page, nothing was bound. *)
Lemma run_zero_cost :
  0 < tg -> cost == 0 ->
  run i = {| bindings := calculations i;
             final := {| cohort := None;
                         page := [st_metric cppg_label
                                    (fixed (cost / tg) 2)] |};
             raised := Some ZeroDivisionError |}.
Proof.
  intros H E. unfold run, results_section.
  rewrite (proj2 (Qle_bool_false_iff _ 0) H), (cppg_defined H).
  unfold bind, lift, show, format_fixed, as_float.
  now rewrite (truediv_zero 1 _ (proj2 (cppg_zero_iff H) E)).
Qed.

(** The whole [else] branch runs. *)
Lemma run_results :
  0 < tg -> ~ cost == 0 -> 0 < tg * m ->
  run i = {| bindings := calculations i;
             final :=
               {| cohort := Some (bound_cohort i (Some (cost / (tg * m))));
                  page := cohort_page i ++
                    [st_write scenario_label
                       [fixed m 1; fixed (cost / (tg * m)) 2]] |};
             raised := None |}.
Proof.
  intros H E A. unfold run, results_section.
  rewrite (proj2 (Qle_bool_false_iff _ 0) H), (cppg_defined H).
  unfold bind, lift, show, assign, format_fixed, as_float.
  rewrite (truediv_ok 1 _ (fun Z => E (proj1 (cppg_zero_iff H) Z))).
  now rewrite (proj2 (Qgt_bool_iff _ 0) A).
Qed.

(** Line 117 raises: [adj_cppg] is [None]. *)
Lemma run_scenario_undefined :
  0 < tg -> ~ cost == 0 -> tg * m <= 0 ->
  run i = {| bindings := calculations i;
             final := {| cohort := Some (bound_cohort i None);
                         page := cohort_page i |};
             raised := Some TypeError |}.
Proof.
  intros H E A. unfold run, results_section.
  rewrite (proj2 (Qle_bool_false_iff _ 0) H), (cppg_defined H).
  unfold bind, lift, show, assign, format_fixed, as_float.
  rewrite (truediv_ok 1 _ (fun Z => E (proj1 (cppg_zero_iff H) Z))).
  now rewrite (proj2 (Qgt_bool_false_iff _ 0) A).
Qed.

End Calculations.

(** ** What a run binds *)

Lemma bindings_run (i : Inputs) : bindings (run i) = calculations i.
Proof.
  unfold run. now destruct (results_section (calculations i) i initial_state).
Qed.

(** The [else] branch binds its names exactly when the total gain is
    positive and line 92 does not divide by zero. *)
Lemma cohort_bound_inv (i : Inputs) (co : Cohort) :
  cohort (final (run i)) = Some co ->
  0 < total_gain_per_person (calculations i) /\
  ~ cost_per_person i == 0 /\
  exists a, co = bound_cohort i a /\
    a = (if Qgt_bool (adj_gain co) 0
         then Some (cost_per_person i / adj_gain co) else None).
Proof.
  intro H.
  destruct (Qlt_le_dec 0 (total_gain_per_person (calculations i))) as [G | G];
    [| rewrite (run_undefined i G) in H; discriminate].
  destruct (Qeq_dec (cost_per_person i) 0) as [E | E];
    [rewrite (run_zero_cost i G E) in H; discriminate |].
  split; [exact G | split; [exact E |]].
  destruct (Qlt_le_dec 0 (total_gain_per_person (calculations i)
                          * scenario_multiplier i)) as [A | A].
  - rewrite (run_results i G E A) in H. injection H as <-.
    eexists; split; [reflexivity |]. cbn [adj_gain bound_cohort].
    now rewrite (proj2 (Qgt_bool_iff _ 0) A).
  - rewrite (run_scenario_undefined i G E A) in H. injection H as <-.
    eexists; split; [reflexivity |]. cbn [adj_gain bound_cohort].
    now rewrite (proj2 (Qgt_bool_false_iff _ 0) A).
Qed.

Lemma cohort_bound (i : Inputs) :
  0 < total_gain_per_person (calculations i) ->
  ~ cost_per_person i == 0 ->
  exists a, cohort (final (run i)) = Some (bound_cohort i a).
Proof.
  intros G E.
  destruct (Qlt_le_dec 0 (total_gain_per_person (calculations i)
                          * scenario_multiplier i)) as [A | A].
  - rewrite (run_results i G E A). now eexists.
  - rewrite (run_scenario_undefined i G E A). now eexists.
Qed.

(** A run ends with an exception in two cases only: line 92 divides by a
    cppg of 0, or line 117 formats an adj_cppg that is None. *)
Lemma raised_zero_division_iff (i : Inputs) :
  raised (run i) = Some ZeroDivisionError <->
  0 < total_gain_per_person (calculations i) /\ cost_per_person i == 0.
Proof.
  destruct (Qlt_le_dec 0 (total_gain_per_person (calculations i)))
    as [G | G].
  - destruct (Qeq_dec (cost_per_person i) 0) as [E | E].
    + rewrite (run_zero_cost i G E). now split.
    + destruct (Qlt_le_dec 0 (total_gain_per_person (calculations i)
                              * scenario_multiplier i)) as [A | A];
        [rewrite (run_results i G E A)
        | rewrite (run_scenario_undefined i G E A)];
        (split; [discriminate | now intros [_ Z]]).
  - rewrite (run_undefined i G). split; [discriminate |].
    intros [L _]. exfalso. apply (Qlt_irrefl 0).
    now apply Qlt_le_trans with (1 := L).
Qed.

Lemma raised_type_error_iff (i : Inputs) :
  raised (run i) = Some TypeError <->
  0 < total_gain_per_person (calculations i) /\
  ~ cost_per_person i == 0 /\
  total_gain_per_person (calculations i) * scenario_multiplier i <= 0.
Proof.
  destruct (Qlt_le_dec 0 (total_gain_per_person (calculations i)))
    as [G | G].
  - destruct (Qeq_dec (cost_per_person i) 0) as [E | E].
    + rewrite (run_zero_cost i G E).
      split; [discriminate | now intros (_ & Z & _)].
    + destruct (Qlt_le_dec 0 (total_gain_per_person (calculations i)
                              * scenario_multiplier i)) as [A | A].
      * rewrite (run_results i G E A). split; [discriminate |].
        intros (_ & _ & L). exfalso. apply (Qlt_irrefl 0).
        now apply Qlt_le_trans with (1 := A).
      * rewrite (run_scenario_undefined i G E A). now split.
  - rewrite (run_undefined i G). split; [discriminate |].
    intros (L & _). exfalso. apply (Qlt_irrefl 0).
    now apply Qlt_le_trans with (1 := L).
Qed.

(** The error box is shown exactly when the total gain is not positive. *)
Lemma undefined_ratio_iff (i : Inputs) :
  undefined_ratio (run i) <-> total_gain_per_person (calculations i) <= 0.
Proof.
  unfold undefined_ratio. split.
  - intros [P R].
    destruct (Qlt_le_dec 0 (total_gain_per_person (calculations i)))
      as [G | G]; [exfalso | exact G].
    destruct (Qeq_dec (cost_per_person i) 0) as [E | E];
      [rewrite (run_zero_cost i G E) in R; discriminate |].
    destruct (Qlt_le_dec 0 (total_gain_per_person (calculations i)
                            * scenario_multiplier i)) as [A | A].
    + rewrite (run_results i G E A) in P. discriminate.
    + rewrite (run_scenario_undefined i G E A) in R. discriminate.
  - intro G. rewrite (run_undefined i G). now split.
Qed.

(** * The claims *)

(** C1: on every input the run binds
    gain_from_math = math_sd * math_gain_per_sd * (1 - fadeout_factor),
    gain_from_grad_rate = (grad_rate_pp / 100) * earnings_gain_hs_vs_dropout,
    gain_from_college = (college_enroll_pp / 100) * earnings_gain_college_vs_hs
    and total_gain_per_person to the sum of the three; and on the inputs of
    the end-to-end example (cost 1000, math_sd 0.1, math_gain_per_sd 80000,
    fadeout 0.3, grad_rate_pp 5, HS gap 300000, college_enroll_pp 3,
    college gap 600000) the gains are 5600, 15000 and 18000, the total is
    38600 and cppg is 1000/38600. *)
Theorem C1_gain_formulas (i : Inputs) :
  let v := bindings (run i) in
  (gain_from_math v
     = math_sd i * math_gain_per_sd i * (1 - fadeout_factor i) /\
   gain_from_grad_rate v
     = (grad_rate_pp i / 100) * earnings_gain_hs_vs_dropout i /\
   gain_from_college v
     = (college_enroll_pp i / 100) * earnings_gain_college_vs_hs i /\
   total_gain_per_person v
     = gain_from_math v + gain_from_grad_rate v + gain_from_college v) /\
  (cost_per_person i == 1000 ->
   math_sd i == 1 # 10 ->
   math_gain_per_sd i == 80000 ->
   fadeout_factor i == 3 # 10 ->
   grad_rate_pp i == 5 ->
   earnings_gain_hs_vs_dropout i == 300000 ->
   college_enroll_pp i == 3 ->
   earnings_gain_college_vs_hs i == 600000 ->
   gain_from_math v == 5600 /\
   gain_from_grad_rate v == 15000 /\
   gain_from_college v == 18000 /\
   total_gain_per_person v == 38600 /\
   exists c, cppg v = Some c /\ c == 1000 / 38600).
Proof.
  cbv zeta. rewrite bindings_run. split.
  - repeat split.
  - intros Hc Hm Hg Hf Hr Hh He Hu.
    assert (M : gain_from_math (calculations i) == 5600)
      by (cbn; rewrite Hm, Hg, Hf; reflexivity).
    assert (G : gain_from_grad_rate (calculations i) == 15000)
      by (cbn; rewrite Hr, Hh; reflexivity).
    assert (C : gain_from_college (calculations i) == 18000)
      by (cbn; rewrite He, Hu; reflexivity).
    assert (T : total_gain_per_person (calculations i) == 38600)
      by (change (gain_from_math (calculations i)
                  + gain_from_grad_rate (calculations i)
                  + gain_from_college (calculations i) == 38600);
          rewrite M, G, C; reflexivity).
    repeat (split; [assumption |]).
    eexists. split.
    + apply cppg_defined. rewrite T. reflexivity.
    + rewrite T, Hc. reflexivity.
Qed.

Lemma C1_gain_formulas_witness :
  gain_from_math (bindings (run default_inputs)) == 5600 /\
  gain_from_grad_rate (bindings (run default_inputs)) == 15000 /\
  gain_from_college (bindings (run default_inputs)) == 18000 /\
  total_gain_per_person (bindings (run default_inputs)) == 38600 /\
  exists c, cppg (bindings (run default_inputs)) = Some c /\
            c == 1000 / 38600.
Proof.
  apply (proj2 (C1_gain_formulas default_inputs)); reflexivity.
Defined.

(** C2: the error box of line 85 is not the only way a run fails.  With
    the defaults and a cost of 0, which the cost widget allows
    (min_value=0.0), the total gain is 38600 > 0, cppg is 0, no error box
    is shown, and line 92 raises ZeroDivisionError before anything of the
    else branch is bound. *)
Theorem C2_zero_cost_raises :
  widgets_ok zero_cost_inputs /\
  0 < total_gain_per_person (bindings (run zero_cost_inputs)) /\
  (exists c, cppg (bindings (run zero_cost_inputs)) = Some c /\ c == 0) /\
  ~ undefined_ratio (run zero_cost_inputs) /\
  raised (run zero_cost_inputs) = Some ZeroDivisionError /\
  cohort (final (run zero_cost_inputs)) = None.
Proof.
  split; [| split; [| split; [| split; [| split]]]].
  - unfold widgets_ok, cost_input_ok, population_input_ok, fadeout_slider_ok,
      scenario_slider_ok, unused_sliders_ok.
    cbn. repeat split; (lia || (intro; discriminate)).
  - reflexivity.
  - eexists. split; reflexivity.
  - intros [P _]. discriminate P.
  - reflexivity.
  - reflexivity.
Qed.

(** C3, as amended: on the failure path (total_gain_per_person <= 0) the
    run writes the fixed error text and nothing else, raises nothing,
    leaves cppg None and binds no name of the else branch.  The three
    gains computed on lines 72-74 are still bound to their values, as on
    every path, but they are not displayed: the page is the same for
    every failing input. *)
Theorem C3_failure_keeps_gains (i : Inputs) :
  total_gain_per_person (calculations i) <= 0 ->
  undefined_ratio (run i) /\
  gain_from_math (bindings (run i))
    = math_sd i * math_gain_per_sd i * (1 - fadeout_factor i) /\
  gain_from_grad_rate (bindings (run i))
    = (grad_rate_pp i / 100) * earnings_gain_hs_vs_dropout i /\
  gain_from_college (bindings (run i))
    = (college_enroll_pp i / 100) * earnings_gain_college_vs_hs i /\
  cppg (bindings (run i)) = None /\
  cohort (final (run i)) = None /\
  page (final (run i)) = [st_error error_text] /\
  (forall j : Inputs,
      total_gain_per_person (calculations j) <= 0 ->
      page (final (run j)) = page (final (run i))).
Proof.
  intro G. split; [now apply undefined_ratio_iff |].
  rewrite (run_undefined i G). cbn [bindings final cohort page].
  repeat split; [now apply cppg_none |].
  intros j Gj. now rewrite (run_undefined j Gj).
Qed.

Lemma C3_failure_keeps_gains_witness :
  total_gain_per_person (calculations no_effect_inputs) <= 0 /\
  undefined_ratio (run no_effect_inputs) /\
  gain_from_math (bindings (run no_effect_inputs)) == 0 /\
  gain_from_grad_rate (bindings (run no_effect_inputs)) == 0 /\
  gain_from_college (bindings (run no_effect_inputs)) == 0.
Proof.
  assert (G : total_gain_per_person (calculations no_effect_inputs) <= 0)
    by (intro; discriminate).
  destruct (C3_failure_keeps_gains no_effect_inputs G)
    as (U & M & R & C & _).
  split; [exact G | split; [exact U |]].
  rewrite M, R, C. repeat split.
Defined.

(** C3, as stated, fails: the gains are not part of what a failing run
    produces for display.  The defaults with no effect at all and with a
    harmful programme both fail, with gains from math of 0 and -56000,
    and write the same page; so no reading of the page gives the gain. *)
Lemma C3_gains_not_on_page :
  total_gain_per_person (calculations no_effect_inputs) <= 0 /\
  total_gain_per_person (calculations negative_effect_inputs) <= 0 /\
  gain_from_math (bindings (run no_effect_inputs)) == 0 /\
  gain_from_math (bindings (run negative_effect_inputs)) == - (56000) /\
  page (final (run no_effect_inputs))
    = page (final (run negative_effect_inputs)) /\
  ~ (exists shown : list Element -> Q,
        forall i : Inputs,
          total_gain_per_person (calculations i) <= 0 ->
          shown (page (final (run i)))
          == gain_from_math (bindings (run i))).
Proof.
  assert (G0 : total_gain_per_person (calculations no_effect_inputs) <= 0)
    by (intro H; discriminate H).
  assert (G1 : total_gain_per_person (calculations negative_effect_inputs)
               <= 0)
    by (intro H; discriminate H).
  split; [exact G0 | split; [exact G1 |]].
  split; [reflexivity | split; [reflexivity | split; [reflexivity |]]].
  intros [shown S].
  pose proof (S no_effect_inputs G0) as A.
  pose proof (S negative_effect_inputs G1) as B.
  change (page (final (run negative_effect_inputs)))
    with (page (final (run no_effect_inputs))) in B.
  rewrite A in B. discriminate B.
Qed.

(** C4: two inputs that differ only in discount_rate, target_age,
    avg_motivation, engagement and persistence_months give the same run:
    the same bindings of lines 72-79, the same bindings of the else
    branch, the same page and the same exception if any. *)
Theorem C4_unused_inputs (i j : Inputs) :
  same_used_inputs i j -> run i = run j.
Proof.
  destruct i, j. unfold same_used_inputs. cbn.
  intros (-> & -> & -> & -> & -> & -> & -> & -> & -> & ->).
  reflexivity.
Qed.

Lemma C4_unused_inputs_witness :
  same_used_inputs default_inputs other_unused_inputs /\
  discount_rate default_inputs <> discount_rate other_unused_inputs /\
  run default_inputs = run other_unused_inputs.
Proof.
  assert (S : same_used_inputs default_inputs other_unused_inputs)
    by (repeat split).
  split; [exact S | split; [discriminate |]].
  exact (C4_unused_inputs default_inputs other_unused_inputs S).
Defined.



(** C6: whenever a run binds both cppg and adj_cppg to numbers, the
    total gain and the adjusted gain are positive and
    adj_cppg = cppg / scenario_multiplier; and it binds both whenever the
    two gains are positive and the cost is not 0. *)
Theorem C6_scenario_scaling (i : Inputs) :
  (forall (c a : Q) (co : Cohort),
      cppg (bindings (run i)) = Some c ->
      cohort (final (run i)) = Some co ->
      adj_cppg co = Some a ->
      0 < total_gain_per_person (bindings (run i)) /\
      adj_gain co
        = total_gain_per_person (bindings (run i)) * scenario_multiplier i /\
      0 < adj_gain co /\
      a == c / scenario_multiplier i) /\
  (0 < total_gain_per_person (calculations i) ->
   0 < total_gain_per_person (calculations i) * scenario_multiplier i ->
   ~ cost_per_person i == 0 ->
   exists (c a : Q) (co : Cohort),
     cppg (bindings (run i)) = Some c /\
     cohort (final (run i)) = Some co /\
     adj_cppg co = Some a).
Proof.
  rewrite bindings_run. split.
  - intros c a co Hc Hco Ha.
    destruct (cohort_bound_inv i co Hco) as (G & E & a' & -> & Ha').
    cbn [adj_cppg adj_gain bound_cohort] in *. rewrite Ha in Ha'.
    rewrite (cppg_defined i G) in Hc. injection Hc as <-.
    destruct (Qgt_bool (total_gain_per_person (calculations i)
                        * scenario_multiplier i) 0) eqn:A;
      [| discriminate].
    injection Ha' as ->. apply Qgt_bool_iff in A.
    split; [exact G | split; [reflexivity | split; [exact A |]]].
    now apply scaled_ratio.
  - intros G A E. rewrite (run_results i G E A), (cppg_defined i G).
    do 3 eexists. cbn. repeat split.
Qed.

Lemma C6_scenario_scaling_witness :
  exists (c a : Q),
    cppg (bindings (run default_inputs)) = Some c /\
    option_map adj_cppg (cohort (final (run default_inputs)))
      = Some (Some a) /\
    a == c / scenario_multiplier default_inputs.
Proof.
  destruct (C6_scenario_scaling default_inputs) as [S _].
  exists (1000000000 # 38600000000), (1000000000 # 38600000000).
  split; [reflexivity | split; [reflexivity |]].
  eapply S; reflexivity.
Defined.

(** C7: on an input with a positive total gain, the cohort totals a run
    binds are total_cost = cost_per_person * population,
    total_gain = total_gain_per_person * population and
    net_gain = total_gain - total_cost, with no rounding in between; the
    run binds them unless the cost is 0, where line 92 raises first. *)
Theorem C7_cohort_totals (i : Inputs) :
  0 < total_gain_per_person (bindings (run i)) ->
  (forall co : Cohort,
      cohort (final (run i)) = Some co ->
      total_cost co = cost_per_person i * inject_Z (population i) /\
      total_gain co
        = total_gain_per_person (bindings (run i)) * inject_Z (population i) /\
      net_gain co = total_gain co - total_cost co) /\
  (~ cost_per_person i == 0 ->
   exists co : Cohort, cohort (final (run i)) = Some co).
Proof.
  rewrite bindings_run. intro G. split.
  - intros co Hco.
    destruct (cohort_bound_inv i co Hco) as (_ & _ & a & -> & _).
    repeat split.
  - intro E. destruct (cohort_bound i G E) as [a Ha].
    exists (bound_cohort i a). exact Ha.
Qed.

Lemma C7_cohort_totals_witness :
  0 < total_gain_per_person (bindings (run default_inputs)) /\
  option_map total_cost (cohort (final (run default_inputs)))
    = Some (1000 * inject_Z 1000) /\
  option_map net_gain (cohort (final (run default_inputs)))
    = option_map (fun co => total_gain co - total_cost co)
        (cohort (final (run default_inputs))).
Proof.
  assert (G : 0 < total_gain_per_person (bindings (run default_inputs)))
    by reflexivity.
  destruct (C7_cohort_totals default_inputs G) as [S [co Hco]];
    [intro; discriminate |].
  destruct (S co Hco) as (C & _ & N).
  split; [exact G |]. rewrite Hco. cbn [option_map].
  split; [now rewrite C | now rewrite N].
Defined.

(** C8: with the three conversion factors positive and the fade-out
    factor in [0,1], raising math_sd, grad_rate_pp or college_enroll_pp
    alone, all other inputs fixed, does not lower
    total_gain_per_person. *)
Theorem C8_monotone (i : Inputs) (x : Q) :
  0 < math_gain_per_sd i ->
  0 < earnings_gain_hs_vs_dropout i ->
  0 < earnings_gain_college_vs_hs i ->
  fadeout_slider_ok i ->
  (math_sd i <= x ->
   total_gain_per_person (bindings (run i))
   <= total_gain_per_person (bindings (run (with_math_sd x i)))) /\
  (grad_rate_pp i <= x ->
   total_gain_per_person (bindings (run i))
   <= total_gain_per_person (bindings (run (with_grad_rate_pp x i)))) /\
  (college_enroll_pp i <= x ->
   total_gain_per_person (bindings (run i))
   <= total_gain_per_person (bindings (run (with_college_enroll_pp x i)))).
Proof.
  intros M H C [F0 F1]. rewrite !bindings_run. cbn.
  repeat split; intro L.
  - apply Qplus_le_l, Qplus_le_l, Qmult_le_compat_r; [| lra].
    apply Qmult_le_compat_r; lra.
  - apply Qplus_le_l, Qplus_le_r, Qmult_le_compat_r; [| lra].
    apply Qmult_le_compat_r; [lra | discriminate].
  - apply Qplus_le_r, Qmult_le_compat_r; [| lra].
    apply Qmult_le_compat_r; [lra | discriminate].
Qed.

Lemma C8_monotone_witness :
  total_gain_per_person (bindings (run default_inputs))
  <= total_gain_per_person (bindings (run (with_math_sd 1 default_inputs))).
Proof.
  apply (C8_monotone default_inputs 1);
    try reflexivity; try (split; intro; discriminate); intro; discriminate.
Defined.

(** C9: with a positive total gain and a positive cost, cppg and roi are
    both bound, roi = 1 / cppg = total_gain_per_person / cost_per_person
    and cppg * total_gain_per_person = cost_per_person, in exact
    arithmetic. *)
Theorem C9_roi_inverse (i : Inputs) :
  0 < total_gain_per_person (bindings (run i)) ->
  0 < cost_per_person i ->
  exists (c : Q) (co : Cohort),
    cppg (bindings (run i)) = Some c /\
    cohort (final (run i)) = Some co /\
    roi co == 1 / c /\
    roi co == total_gain_per_person (bindings (run i)) / cost_per_person i /\
    c * total_gain_per_person (bindings (run i)) == cost_per_person i.
Proof.
  rewrite bindings_run. intros G C.
  assert (E : ~ cost_per_person i == 0) by lra.
  destruct (cohort_bound i G E) as [a Ha].
  exists (cost_per_person i / total_gain_per_person (calculations i)),
    (bound_cohort i a).
  split; [now apply cppg_defined | split; [exact Ha |]].
  cbn [roi bound_cohort].
  generalize dependent (total_gain_per_person (calculations i)).
  intros t G. split; [| split].
  - reflexivity.
  - field. split; lra.
  - field. lra.
Qed.

Lemma C9_roi_inverse_witness :
  0 < total_gain_per_person (bindings (run default_inputs)) /\
  0 < cost_per_person default_inputs /\
  exists (c : Q) (co : Cohort),
    cppg (bindings (run default_inputs)) = Some c /\
    cohort (final (run default_inputs)) = Some co /\
    roi co == 386 # 10.
Proof.
  assert (G : 0 < total_gain_per_person (bindings (run default_inputs)))
    by reflexivity.
  assert (C : 0 < cost_per_person default_inputs) by reflexivity.
  destruct (C9_roi_inverse default_inputs G C)
    as (c & co & Hc & Hco & _ & R & _).
  split; [exact G | split; [exact C |]].
  exists c, co. split; [exact Hc | split; [exact Hco |]].
  rewrite R. reflexivity.
Defined.



(** * Further properties of the script *)

(** ** Arithmetic of ratios *)

Lemma ratio_times_divisor (a t : Q) : 0 < t -> a / t * t == a.
Proof. intro T. field. lra. Qed.

Lemma ratio_lt_1 (a t : Q) : 0 < t -> (a / t < 1 <-> a < t).
Proof.
  intro T. pose proof (ratio_times_divisor a t T) as E.
  split; intro H; nra.
Qed.

Lemma ratio_eq_1 (a t : Q) : 0 < t -> (a / t == 1 <-> a == t).
Proof.
  intro T. pose proof (ratio_times_divisor a t T) as E.
  split; intro H; nra.
Qed.

Lemma ratio_nonneg (a t : Q) : 0 <= a -> 0 < t -> 0 <= a / t.
Proof.
  intros A T. pose proof (ratio_times_divisor a t T) as E.
  destruct (Qlt_le_dec (a / t) 0) as [N | N]; [nra | exact N].
Qed.

Lemma ratio_pos (a t : Q) : 0 < a -> 0 < t -> 0 < a / t.
Proof.
  intros A T. pose proof (ratio_times_divisor a t T) as E.
  destruct (Qlt_le_dec 0 (a / t)) as [N | N]; [exact N | nra].
Qed.

Lemma ratio_le_num (a b t : Q) : 0 < t -> a <= b -> a / t <= b / t.
Proof.
  intros T L.
  pose proof (ratio_times_divisor a t T) as Ea.
  pose proof (ratio_times_divisor b t T) as Eb.
  destruct (Qlt_le_dec (b / t) (a / t)) as [N | N]; [nra | exact N].
Qed.

Lemma ratio_le_den (a t u : Q) :
  0 <= a -> 0 < t -> t <= u -> a / u <= a / t.
Proof.
  intros A T L.
  assert (U : 0 < u) by lra.
  pose proof (ratio_times_divisor a t T) as Et.
  pose proof (ratio_times_divisor a u U) as Eu.
  pose proof (ratio_nonneg a u A U) as Nu.
  destruct (Qlt_le_dec (a / t) (a / u)) as [N | N]; [nra | exact N].
Qed.

Lemma nonpos_times_nonneg (a b : Q) : a <= 0 -> 0 <= b -> a * b <= 0.
Proof. intros A B. nra. Qed.

Lemma percent_nonpos (a : Q) : a <= 0 -> a / 100 <= 0.
Proof.
  intro A. apply nonpos_times_nonneg; [exact A | intro H; discriminate H].
Qed.

Lemma population_pos (i : Inputs) :
  population_input_ok i -> 0 < inject_Z (population i).
Proof.
  unfold population_input_ok. intro H.
  change 0 with (inject_Z 0). rewrite <- Zlt_Qlt. lia.
Qed.


(** Case analysis on the way a run goes. *)
Ltac run_cases i G E A :=
  destruct (Qlt_le_dec 0 (total_gain_per_person (calculations i)))
    as [G | G];
  [ destruct (Qeq_dec (cost_per_person i) 0) as [E | E];
    [ rewrite ?(run_zero_cost i G E) in *
    | destruct (Qlt_le_dec 0 (total_gain_per_person (calculations i)
                              * scenario_multiplier i)) as [A | A];
      [ rewrite ?(run_results i G E A) in *
      | rewrite ?(run_scenario_undefined i G E A) in * ] ]
  | rewrite ?(run_undefined i G) in * ].

(** ** Exceptions *)



(** X2: a number for cppg and the error box never come together.  When
    cppg is bound to a number, the total gain is positive and the page
    starts with the CPPG metric showing that number to 2 decimals, not
    with the error box; when the error box is written, the total gain is
    not positive, cppg is None, and nothing is raised or bound. *)
Theorem X2_number_excludes_error_box (i : Inputs) :
  (forall c : Q,
      cppg (bindings (run i)) = Some c ->
      0 < total_gain_per_person (bindings (run i)) /\
      hd_error (page (final (run i)))
        = Some (st_metric cppg_label (fixed c 2)) /\
      ~ In (st_error error_text) (page (final (run i)))) /\
  (In (st_error error_text) (page (final (run i))) ->
   total_gain_per_person (bindings (run i)) <= 0 /\
   cppg (bindings (run i)) = None /\
   page (final (run i)) = [st_error error_text] /\
   cohort (final (run i)) = None /\
   raised (run i) = None).
Proof.
  rewrite bindings_run.
  assert (P : 0 < total_gain_per_person (calculations i) ->
              ~ In (st_error error_text) (page (final (run i)))).
  { intro G.
    destruct (Qeq_dec (cost_per_person i) 0) as [E | E];
      [rewrite (run_zero_cost i G E)
      | destruct (Qlt_le_dec 0 (total_gain_per_person (calculations i)
                                * scenario_multiplier i)) as [A | A];
        [rewrite (run_results i G E A)
        | rewrite (run_scenario_undefined i G E A)]];
      cbn [final page cohort_page app In];
      intro I; repeat destruct I as [I | I]; try discriminate I; exact I. }
  split.
  - intros c Hc.
    destruct (Qlt_le_dec 0 (total_gain_per_person (calculations i)))
      as [G | G]; [| rewrite (cppg_none i G) in Hc; discriminate].
    rewrite (cppg_defined i G) in Hc.
    assert (c = cost_per_person i / total_gain_per_person (calculations i))
      by congruence.
    subst c. split; [exact G | split; [| now apply P]].
    destruct (Qeq_dec (cost_per_person i) 0) as [E | E];
      [rewrite (run_zero_cost i G E)
      | destruct (Qlt_le_dec 0 (total_gain_per_person (calculations i)
                                * scenario_multiplier i)) as [A | A];
        [rewrite (run_results i G E A)
        | rewrite (run_scenario_undefined i G E A)]];
      reflexivity.
  - intro I.
    destruct (Qlt_le_dec 0 (total_gain_per_person (calculations i)))
      as [G | G]; [now elim (P G) |].
    split; [exact G | split; [now apply cppg_none |]].
    rewrite (run_undefined i G). repeat split.
Qed.

(** X4: the failure branch shows no number.  Any two inputs with a
    non-positive total gain end in the same state, with the same page:
    the fixed error text, whatever the three gains are. *)
Theorem X4_error_page_is_fixed (i j : Inputs) :
  total_gain_per_person (calculations i) <= 0 ->
  total_gain_per_person (calculations j) <= 0 ->
  final (run i) = final (run j) /\
  page (final (run i)) = [st_error error_text] /\
  raised (run i) = raised (run j).
Proof.
  intros Gi Gj. rewrite (run_undefined i Gi), (run_undefined j Gj).
  repeat split.
Qed.

Lemma X4_error_page_is_fixed_witness :
  ~ gain_from_math (calculations no_effect_inputs)
    == gain_from_math (calculations negative_effect_inputs) /\
  final (run no_effect_inputs) = final (run negative_effect_inputs).
Proof.
  split; [intro H; discriminate H |].
  apply (X4_error_page_is_fixed no_effect_inputs negative_effect_inputs);
    intro H; discriminate H.
Defined.

(** ** Boundaries of the gain formulas *)

(** X5: with the fade-out factor at 1 the gain from math is 0 whatever
    math_sd and math_gain_per_sd are, the total gain is the sum of the two
    other gains, and changing math_sd does not change the total gain. *)
Theorem X5_full_fadeout (i : Inputs) (x : Q) :
  fadeout_factor i == 1 ->
  gain_from_math (bindings (run i)) == 0 /\
  total_gain_per_person (bindings (run i))
    == gain_from_grad_rate (bindings (run i))
       + gain_from_college (bindings (run i)) /\
  total_gain_per_person (bindings (run (with_math_sd x i)))
    == total_gain_per_person (bindings (run i)).
Proof.
  intro F. rewrite !bindings_run. cbn. rewrite F.
  split; [ring | split; ring].
Qed.

Lemma X5_full_fadeout_witness :
  gain_from_math (bindings (run full_fadeout_inputs)) == 0 /\
  total_gain_per_person (bindings (run full_fadeout_inputs)) == 33000.
Proof.
  destruct (X5_full_fadeout full_fadeout_inputs 0) as (M & T & _);
    [reflexivity |].
  split; [exact M |]. rewrite T. reflexivity.
Defined.

(** X6: when no effect size is positive, the conversion factors are not
    negative and the fade-out factor is at most 1, the run gives no
    ratio: the total gain is not positive, cppg is None, no name of the
    else branch is bound and no metric is written.  In particular this is
    so when the three effect sizes are 0. *)
Theorem X6_no_positive_effect (i : Inputs) :
  math_sd i <= 0 -> grad_rate_pp i <= 0 -> college_enroll_pp i <= 0 ->
  0 <= math_gain_per_sd i ->
  0 <= earnings_gain_hs_vs_dropout i ->
  0 <= earnings_gain_college_vs_hs i ->
  fadeout_factor i <= 1 ->
  ~ 0 < total_gain_per_person (bindings (run i)) /\
  cppg (bindings (run i)) = None /\
  cohort (final (run i)) = None /\
  (forall (t : string) (v : Formatted),
      ~ In (st_metric t v) (page (final (run i)))).
Proof.
  intros M R C Gm Gh Gc F. rewrite bindings_run.
  assert (T : total_gain_per_person (calculations i) <= 0).
  { cbn.
    assert (math_sd i * math_gain_per_sd i * (1 - fadeout_factor i) <= 0)
      by (repeat apply nonpos_times_nonneg; lra).
    assert (grad_rate_pp i / 100 * earnings_gain_hs_vs_dropout i <= 0)
      by (apply nonpos_times_nonneg; [now apply percent_nonpos | lra]).
    assert (college_enroll_pp i / 100 * earnings_gain_college_vs_hs i <= 0)
      by (apply nonpos_times_nonneg; [now apply percent_nonpos | lra]).
    lra. }
  split; [now apply Qle_not_lt | split; [now apply cppg_none |]].
  rewrite (run_undefined i T). cbn [final cohort page In].
  split; [reflexivity |].
  intros t v [I | I]; [discriminate I | exact I].
Qed.

Lemma X6_no_positive_effect_witness :
  total_gain_per_person (bindings (run no_effect_inputs)) == 0 /\
  cppg (bindings (run no_effect_inputs)) = None /\
  cohort (final (run no_effect_inputs)) = None.
Proof.
  destruct (X6_no_positive_effect no_effect_inputs) as (_ & N & C & _);
    try (intro H; discriminate H).
  split; [reflexivity | split; [exact N | exact C]].
Defined.

(** ** The ratios and the cohort totals *)

(** X7: what the help text of the CPPG metric says (line 90).  In a run
    that binds the cohort totals, with a population of at least 1, cppg is
    below 1 exactly when the net gain is positive, equal to 1 exactly when
    the net gain is 0, and, the cost being positive, below 1 exactly when
    roi is above 1. *)
Theorem X7_cppg_below_one (i : Inputs) (c : Q) (co : Cohort) :
  population_input_ok i ->
  cppg (bindings (run i)) = Some c ->
  cohort (final (run i)) = Some co ->
  (c < 1 <-> 0 < net_gain co) /\
  (c == 1 <-> net_gain co == 0) /\
  (0 < cost_per_person i -> (c < 1 <-> 1 < roi co)).
Proof.
  intros N Hc Hco. rewrite bindings_run in Hc.
  destruct (cohort_bound_inv i co Hco) as (G & E & a & -> & _).
  rewrite (cppg_defined i G) in Hc.
  assert (c = cost_per_person i / total_gain_per_person (calculations i))
    by congruence.
  subst c. clear Hc.
  cbn [net_gain roi bound_cohort].
  pose proof (population_pos i N) as P.
  generalize dependent (total_gain_per_person (calculations i)).
  intros t G.
  pose proof (ratio_lt_1 (cost_per_person i) t G) as L.
  pose proof (ratio_eq_1 (cost_per_person i) t G) as Q1.
  split; [| split].
  - rewrite L. split; intro H; nra.
  - rewrite Q1. split; intro H; nra.
  - intro C. rewrite L.
    setoid_replace (1 / (cost_per_person i / t))
      with (t / cost_per_person i) by (field; split; lra).
    pose proof (ratio_lt_1 t (cost_per_person i) C) as R.
    pose proof (ratio_times_divisor t (cost_per_person i) C) as T.
    split; intro H; nra.
Qed.

Lemma X7_cppg_below_one_witness :
  population_input_ok costly_inputs /\
  exists (c : Q) (co : Cohort),
    cppg (bindings (run costly_inputs)) = Some c /\
    cohort (final (run costly_inputs)) = Some co /\
    ~ c < 1 /\ ~ 0 < net_gain co.
Proof.
  assert (N : population_input_ok costly_inputs) by (intro H; discriminate H).
  split; [exact N |].
  eexists. eexists. split; [reflexivity | split; [reflexivity |]].
  assert (C : ~ (50000000000 # 38600000000) < 1)
    by (intro H; discriminate H).
  split; [exact C |].
  intro H. apply C.
  eapply (proj1 (X7_cppg_below_one costly_inputs _ _ N eq_refl eq_refl)).
  exact H.
Defined.

(** X8: the size of the cohort cancels out.  In a run that binds the
    cohort totals, with a population of at least 1,
    total_cost / total_gain is cppg. *)
Theorem X8_cohort_ratio (i : Inputs) (c : Q) (co : Cohort) :
  population_input_ok i ->
  cppg (bindings (run i)) = Some c ->
  cohort (final (run i)) = Some co ->
  0 < total_gain co /\ total_cost co / total_gain co == c.
Proof.
  intros N Hc Hco. rewrite bindings_run in Hc.
  destruct (cohort_bound_inv i co Hco) as (G & E & a & -> & _).
  rewrite (cppg_defined i G) in Hc.
  assert (c = cost_per_person i / total_gain_per_person (calculations i))
    by congruence.
  subst c. clear Hc.
  cbn [total_cost total_gain bound_cohort].
  pose proof (population_pos i N) as P.
  generalize dependent (total_gain_per_person (calculations i)).
  intros t G. split.
  - now apply Qmult_lt_0_compat.
  - field. split; lra.
Qed.

Lemma X8_cohort_ratio_witness :
  population_input_ok default_inputs /\
  exists (c : Q) (co : Cohort),
    cppg (bindings (run default_inputs)) = Some c /\
    cohort (final (run default_inputs)) = Some co /\
    total_cost co / total_gain co == c.
Proof.
  assert (N : population_input_ok default_inputs)
    by (intro H; discriminate H).
  split; [exact N |].
  eexists. eexists. split; [reflexivity | split; [reflexivity |]].
  exact (proj2 (X8_cohort_ratio default_inputs _ _ N eq_refl eq_refl)).
Defined.

(** ** The scenario analysis *)

(** The total gain is linear in the three effect sizes. *)
Lemma total_gain_scaled (k : Q) (i : Inputs) :
  total_gain_per_person (calculations (scaled_effects k i))
  == total_gain_per_person (calculations i) * k.
Proof. cbn. field. Qed.

(** X9: the scenario sentence says what it computes (lines 106-117).
    Whenever a run binds adj_cppg to a number, that number is the cppg of
    the same inputs with the three effect sizes multiplied by the scenario
    multiplier, and adj_gain is their total gain. *)
Theorem X9_scenario_scales_effects (i : Inputs) (co : Cohort) (a : Q) :
  cohort (final (run i)) = Some co ->
  adj_cppg co = Some a ->
  adj_gain co
    == total_gain_per_person
         (bindings (run (scaled_effects (scenario_multiplier i) i))) /\
  exists c',
    cppg (bindings (run (scaled_effects (scenario_multiplier i) i)))
      = Some c' /\
    c' == a.
Proof.
  intros Hco Ha. rewrite !bindings_run.
  destruct (cohort_bound_inv i co Hco) as (G & E & a' & -> & Ha').
  cbn [adj_cppg adj_gain bound_cohort] in *. rewrite Ha in Ha'. clear Ha.
  destruct (Qgt_bool (total_gain_per_person (calculations i)
                      * scenario_multiplier i) 0) eqn:A; [| discriminate].
  apply Qgt_bool_iff in A.
  assert (a = cost_per_person i
              / (total_gain_per_person (calculations i)
                 * scenario_multiplier i)) by congruence.
  subst a. clear Ha'.
  pose proof (total_gain_scaled (scenario_multiplier i) i) as T.
  split; [now symmetry |].
  eexists. split.
  - apply cppg_defined. rewrite T. exact A.
  - change (cost_per_person (scaled_effects (scenario_multiplier i) i))
      with (cost_per_person i).
    now rewrite T.
Qed.

Lemma X9_scenario_scales_effects_witness :
  exists (co : Cohort) (a c' : Q),
    cohort (final (run pessimistic_inputs)) = Some co /\
    adj_cppg co = Some a /\
    cppg (bindings (run (scaled_effects (1 # 2) default_inputs))) = Some c' /\
    c' == a.
Proof.
  destruct (X9_scenario_scales_effects pessimistic_inputs _ _ eq_refl eq_refl)
    as (_ & c' & Hc & E).
  do 3 eexists. split; [reflexivity | split; [reflexivity |]].
  split; [exact Hc | exact E].
Defined.

(** X10: with the scenario slider in its range [0.5, 1.5] and a cost that
    is not negative, the adjusted CPPG lies between two thirds of cppg and
    twice cppg; it is cppg at the default multiplier 1, at most cppg
    when the multiplier is at least 1 and at least cppg when it is at most
    1. *)
Theorem X10_scenario_range (i : Inputs) (c a : Q) (co : Cohort) :
  scenario_slider_ok i ->
  cost_input_ok i ->
  cppg (bindings (run i)) = Some c ->
  cohort (final (run i)) = Some co ->
  adj_cppg co = Some a ->
  (2 # 3) * c <= a /\ a <= 2 * c /\
  (scenario_multiplier i == 1 -> a == c) /\
  (1 <= scenario_multiplier i -> a <= c) /\
  (scenario_multiplier i <= 1 -> c <= a).
Proof.
  intros [L U] C Hc Hco Ha. unfold cost_input_ok in C.
  rewrite bindings_run in Hc.
  destruct (cohort_bound_inv i co Hco) as (G & E & a' & -> & Ha').
  cbn [adj_cppg adj_gain bound_cohort] in *. rewrite Ha in Ha'. clear Ha.
  destruct (Qgt_bool (total_gain_per_person (calculations i)
                      * scenario_multiplier i) 0) eqn:A; [| discriminate].
  apply Qgt_bool_iff in A.
  assert (a = cost_per_person i
              / (total_gain_per_person (calculations i)
                 * scenario_multiplier i)) by congruence.
  subst a. clear Ha'.
  rewrite (cppg_defined i G) in Hc.
  assert (c = cost_per_person i / total_gain_per_person (calculations i))
    by congruence.
  subst c. clear Hc.
  generalize dependent (total_gain_per_person (calculations i)).
  intros t G A.
  pose proof (scaled_ratio (cost_per_person i) t (scenario_multiplier i) G A)
    as S.
  pose proof (ratio_nonneg (cost_per_person i) t C G) as N.
  set (c := cost_per_person i / t) in *.
  assert (M : 0 < scenario_multiplier i) by lra.
  pose proof (ratio_times_divisor c (scenario_multiplier i) M) as D.
  rewrite S. set (a := c / scenario_multiplier i) in *.
  repeat split; intros; nra.
Qed.

Lemma X10_scenario_range_witness :
  scenario_slider_ok pessimistic_inputs /\
  cost_input_ok pessimistic_inputs /\
  exists (c a : Q) (co : Cohort),
    cppg (bindings (run pessimistic_inputs)) = Some c /\
    cohort (final (run pessimistic_inputs)) = Some co /\
    adj_cppg co = Some a /\
    a <= 2 * c /\ a == 2 * c.
Proof.
  assert (S : scenario_slider_ok pessimistic_inputs)
    by (split; intro H; discriminate H).
  assert (C : cost_input_ok pessimistic_inputs)
    by (intro H; discriminate H).
  split; [exact S | split; [exact C |]].
  do 3 eexists.
  split; [reflexivity | split; [reflexivity | split; [reflexivity |]]].
  split; [| reflexivity].
  exact (proj1 (proj2
    (X10_scenario_range pessimistic_inputs _ _ _ S C eq_refl eq_refl eq_refl))).
Defined.

(** ** Comparing two programmes *)

(** X11: lower is better.  If cppg is a number for some inputs, then for
    any inputs with a cost that is not negative and not higher, and a
    total gain that is not lower, cppg is a number too, and not higher. *)
Theorem X11_cheaper_and_better (i j : Inputs) (c : Q) :
  cppg (bindings (run i)) = Some c ->
  cost_input_ok j ->
  cost_per_person j <= cost_per_person i ->
  total_gain_per_person (calculations i)
    <= total_gain_per_person (calculations j) ->
  exists c', cppg (bindings (run j)) = Some c' /\ c' <= c.
Proof.
  intros Hc C L T. unfold cost_input_ok in C. rewrite bindings_run in *.
  destruct (Qlt_le_dec 0 (total_gain_per_person (calculations i)))
    as [G | G]; [| rewrite (cppg_none i G) in Hc; discriminate].
  rewrite (cppg_defined i G) in Hc.
  assert (c = cost_per_person i / total_gain_per_person (calculations i))
    by congruence.
  subst c. clear Hc.
  assert (G' : 0 < total_gain_per_person (calculations j)) by lra.
  eexists. split; [now apply cppg_defined |].
  apply Qle_trans
    with (cost_per_person j / total_gain_per_person (calculations i)).
  - now apply ratio_le_den.
  - now apply ratio_le_num.
Qed.

Lemma X11_cheaper_and_better_witness :
  exists c c',
    cppg (bindings (run costly_inputs)) = Some c /\
    cppg (bindings (run default_inputs)) = Some c' /\
    c' <= c.
Proof.
  destruct (X11_cheaper_and_better costly_inputs default_inputs _ eq_refl)
    as (c' & Hc' & L); try (intro H; discriminate H).
  eexists. exists c'. split; [reflexivity | split; [exact Hc' | exact L]].
Defined.

(** X12: with a cost that is not negative and a population of at least
    1, every number of a run that binds the cohort totals is positive:
    the cost itself, cppg, roi, total_cost, total_gain, and adj_cppg when
    it is a number. *)
Theorem X12_results_are_positive (i : Inputs) (c : Q) (co : Cohort) :
  cost_input_ok i ->
  population_input_ok i ->
  cppg (bindings (run i)) = Some c ->
  cohort (final (run i)) = Some co ->
  0 < cost_per_person i /\ 0 < c /\ 0 < roi co /\
  0 < total_cost co /\ 0 < total_gain co /\
  (forall a, adj_cppg co = Some a -> 0 < a).
Proof.
  intros C N Hc Hco. unfold cost_input_ok in C.
  rewrite bindings_run in Hc.
  destruct (cohort_bound_inv i co Hco) as (G & E & a' & -> & Ha').
  cbn [adj_cppg adj_gain roi total_cost total_gain bound_cohort] in *.
  rewrite (cppg_defined i G) in Hc.
  assert (c = cost_per_person i / total_gain_per_person (calculations i))
    by congruence.
  subst c. clear Hc.
  pose proof (population_pos i N) as P.
  assert (C' : 0 < cost_per_person i).
  { destruct (Qle_lt_or_eq _ _ C) as [L | L];
      [exact L | now symmetry in L]. }
  generalize dependent (total_gain_per_person (calculations i)).
  intros t G Ha'.
  pose proof (ratio_pos (cost_per_person i) t C' G) as R.
  split; [exact C' | split; [exact R |]].
  split; [apply ratio_pos; [reflexivity | exact R] |].
  split; [now apply Qmult_lt_0_compat |].
  split; [now apply Qmult_lt_0_compat |].
  intros a Ha. rewrite Ha in Ha'.
  destruct (Qgt_bool (t * scenario_multiplier i) 0) eqn:A; [| discriminate].
  apply Qgt_bool_iff in A.
  assert (a = cost_per_person i / (t * scenario_multiplier i))
    by congruence.
  subst a. now apply ratio_pos.
Qed.

Lemma X12_results_are_positive_witness :
  cost_input_ok default_inputs /\
  population_input_ok default_inputs /\
  exists (c : Q) (co : Cohort),
    cppg (bindings (run default_inputs)) = Some c /\
    cohort (final (run default_inputs)) = Some co /\
    0 < c /\ 0 < roi co.
Proof.
  assert (C : cost_input_ok default_inputs) by (intro H; discriminate H).
  assert (N : population_input_ok default_inputs)
    by (intro H; discriminate H).
  split; [exact C | split; [exact N |]].
  destruct (X12_results_are_positive default_inputs _ _ C N eq_refl eq_refl)
    as (_ & Pc & Pr & _).
  do 2 eexists. split; [reflexivity | split; [reflexivity |]].
  split; [exact Pc | exact Pr].
Defined.

(** X13: the size of the cohort changes the three totals and nothing
    else.  With another population the run binds the same gains, total
    gain and cppg, raises the same exception if any, and binds the same
    roi, adj_gain and adj_cppg. *)
Theorem X13_population_only_scales_totals (i : Inputs) (n : Z) :
  bindings (run (with_population n i)) = bindings (run i) /\
  raised (run (with_population n i)) = raised (run i) /\
  option_map roi (cohort (final (run (with_population n i))))
    = option_map roi (cohort (final (run i))) /\
  option_map adj_gain (cohort (final (run (with_population n i))))
    = option_map adj_gain (cohort (final (run i))) /\
  option_map adj_cppg (cohort (final (run (with_population n i))))
    = option_map adj_cppg (cohort (final (run i))) /\
  option_map total_cost (cohort (final (run (with_population n i))))
    = option_map (fun _ => cost_per_person i * inject_Z n)
        (cohort (final (run i))).
Proof.
  rewrite !bindings_run. split; [reflexivity |].
  destruct (Qlt_le_dec 0 (total_gain_per_person (calculations i)))
    as [G | G].
  - destruct (Qeq_dec (cost_per_person i) 0) as [E | E].
    + rewrite (run_zero_cost i G E),
        (run_zero_cost (with_population n i) G E).
      repeat split.
    + destruct (Qlt_le_dec 0 (total_gain_per_person (calculations i)
                              * scenario_multiplier i)) as [A | A].
      * rewrite (run_results i G E A),
          (run_results (with_population n i) G E A).
        repeat split.
      * rewrite (run_scenario_undefined i G E A),
          (run_scenario_undefined (with_population n i) G E A).
        repeat split.
  - rewrite (run_undefined i G), (run_undefined (with_population n i) G).
    repeat split.
Qed.

(** ** The page *)

(** X14: the page shows what was bound.  A run that binds cppg, the
    cohort totals and a number for adj_cppg raises nothing and writes six
    elements, in this order: the CPPG metric (cppg, 2 decimals), the ROI
    metric (roi, 1 decimal), the three totals (total_cost, total_gain,
    net_gain, 0 decimals), and the scenario sentence (the multiplier with
    1 decimal, adj_cppg with 2). *)
Theorem X14_page_shows_bound_values
  (i : Inputs) (c a : Q) (co : Cohort) :
  cppg (bindings (run i)) = Some c ->
  cohort (final (run i)) = Some co ->
  adj_cppg co = Some a ->
  raised (run i) = None /\
  page (final (run i)) =
    [st_metric cppg_label (fixed c 2);
     st_metric roi_label (fixed (roi co) 1);
     st_write total_cost_label [fixed (total_cost co) 0];
     st_write total_gain_label [fixed (total_gain co) 0];
     st_write net_gain_label [fixed (net_gain co) 0];
     st_write scenario_label [fixed (scenario_multiplier i) 1; fixed a 2]].
Proof.
  rewrite bindings_run.
  destruct (Qlt_le_dec 0 (total_gain_per_person (calculations i)))
    as [G | G]; [| rewrite (run_undefined i G); discriminate].
  rewrite (cppg_defined i G).
  destruct (Qeq_dec (cost_per_person i) 0) as [E | E];
    [rewrite (run_zero_cost i G E); discriminate |].
  destruct (Qlt_le_dec 0 (total_gain_per_person (calculations i)
                          * scenario_multiplier i)) as [A | A].
  - rewrite (run_results i G E A). cbn [final cohort page raised].
    intros Hc Hco Ha.
    assert (co = bound_cohort i
                   (Some (cost_per_person i
                          / (total_gain_per_person (calculations i)
                             * scenario_multiplier i))))
      by congruence.
    subst co. cbn [adj_cppg bound_cohort] in Ha.
    assert (c = cost_per_person i / total_gain_per_person (calculations i))
      by congruence.
    assert (a = cost_per_person i
                / (total_gain_per_person (calculations i)
                   * scenario_multiplier i)) by congruence.
    subst c a. split; reflexivity.
  - rewrite (run_scenario_undefined i G E A). cbn [final cohort].
    intros _ Hco Ha.
    assert (co = bound_cohort i None) by congruence.
    subst co. discriminate Ha.
Qed.

Lemma X14_page_shows_bound_values_witness :
  raised (run default_inputs) = None /\
  length (page (final (run default_inputs))) = 6%nat.
Proof.
  destruct (X14_page_shows_bound_values default_inputs _ _ _
              eq_refl eq_refl eq_refl) as [R P].
  split; [exact R |]. rewrite P. reflexivity.
Defined.

(** X15: what a free programme leaves on the page.  With a positive total
    gain and a cost of 0, the CPPG metric, with a cppg equal to 0, is
    already written when line 92 raises; nothing else is written and no
    name of the else branch is bound. *)
Theorem X15_zero_cost_page (i : Inputs) :
  0 < total_gain_per_person (calculations i) ->
  cost_per_person i == 0 ->
  exists c,
    cppg (bindings (run i)) = Some c /\ c == 0 /\
    page (final (run i)) = [st_metric cppg_label (fixed c 2)] /\
    cohort (final (run i)) = None /\
    raised (run i) = Some ZeroDivisionError.
Proof.
  intros G E. rewrite bindings_run, (run_zero_cost i G E).
  eexists. split; [now apply cppg_defined |].
  split; [now apply cppg_zero_iff | repeat split].
Qed.

Lemma X15_zero_cost_page_witness :
  exists c,
    c == 0 /\
    page (final (run zero_cost_inputs)) = [st_metric cppg_label (fixed c 2)].
Proof.
  destruct (X15_zero_cost_page zero_cost_inputs) as (c & _ & Z & P & _);
    [reflexivity | reflexivity |].
  exists c. split; [exact Z | exact P].
Defined.
